(** * Website traffic anomaly detection: a shallow embedding of [app.py]

    [app.py] is a Streamlit script.  It saves the uploaded CSV to
    [temp_upload.csv], executes the code cells of the notebook
    [anamoly_backend.ipynb] into its own global namespace, calls the analysis
    functions that the notebook defines, renders the results, reports any
    exception, and removes the temporary file in a [finally] clause.

    The notebook itself is not part of the sources; the analysis functions
    it provides are modelled from the specification (section [SpecBackend]),
    while the script is modelled from [app.py] (section [App]). *)

From Stdlib Require Import ZArith QArith Qround String List Sorted Bool Lia Reals Lra.
From Stdlib Require Import Qabs.
From Stdlib Require Lqa.
Import ListNotations.

Open Scope string_scope.
Open Scope list_scope.
Open Scope Z_scope.

(** ** Data model *)

(** A CSV cell as pandas parses it: a number or a string. *)
Inductive cell : Type :=
| CNum (z : Z)
| CText (s : string).

(** A delimited text file: a header row and data rows. *)
Record csv : Type := mk_csv {
  header : list string;
  rows : list (list cell)
}.

(** One traffic record (a row of the data frame) with the derived columns the
    later stages add; [None] stands for a column that is not there yet. *)
Record packet : Type := mk_packet {
  p_time : Z;
  p_length : Z;
  p_source : string;
  p_destination : string;
  p_protocol : Z;
  p_frequency : option Z;
  p_anomaly : option bool;
  p_category : option string;
  p_protocol_category : option string;
  p_source_category : option string
}.

(** A data frame: its column names and its rows. *)
Record table : Type := mk_table {
  columns : list string;
  records : list packet
}.

(** A time bucket: window start, number of records, anomaly flag column. *)
Record bucket : Type := mk_bucket {
  b_key : Z;
  b_count : Z;
  b_flag : option bool
}.

(** A bucket series; [count_col] is the name of its count column, e.g.
    ["Minute_Request_Count"]. *)
Record series : Type := mk_series {
  count_col : string;
  buckets : list bucket
}.

(** The dictionary returned by [generate_anomaly_report]. *)
Record summary : Type := mk_summary {
  total_records : Z;
  anomalies_detected : Z;
  anomaly_percentage : Q;
  anomaly_categories : list (string * Z);
  protocol_categories : list (string * Z);
  source_categories : list (string * Z)
}.

(** Python exceptions that can reach [except Exception] (all are subclasses of
    [Exception]). *)
Inductive exn : Type :=
| ValidationError (msg : string)
| NameError (msg : string)
| TypeError (msg : string)
| KeyError (key : string)
| IOError (msg : string)
| ProcessingError (msg : string).

(** [str(e)]: a [KeyError] prints the repr of its key. *)
Definition exn_str (e : exn) : string :=
  match e with
  | ValidationError m | NameError m | TypeError m | IOError m
  | ProcessingError m => m
  | KeyError k => "'" ++ k ++ "'"
  end%string.

(** File contents. *)
Inductive file : Type :=
| FCsv (c : csv)
| FEmpty
| FTrafficPlot (pts : list (Z * Z))
| FAnomalyPlot (pts : list (Z * Z * bool))
| FReport (t : table).

(** What the page shows, element by element. *)
Inductive ui_elem : Type :=
| UTitle (s : string)
| UMarkdown (s : string)
| UHeader (s : string)
| USubheader (s : string)
| UFileUploader (label : string)
| USuccess (s : string)
| UError (s : string)
| UWrite (s : string)
| UInfo (s : string)
| UTabs (names : list string)
| UColumns (n : nat)
| UImage (path : string) (content : option file)
| UDataframe (t : table)
| UTotalRecords (n : nat)
| UFeatures (cols : list string)
| USummaryLine (detected : Z) (pct_2dp : Q)
| USeries (s : list (string * Z))
| UDownload (label : string) (file_name : string) (data : table)
| USampleData.

(** The world a run acts on: the file system (an association list, newest
    entry first), created directories, the rendered page, and the paths on
    which a write fails (disk full, permissions). *)
Record world : Type := mk_world {
  fs : list (string * file);
  dirs : list string;
  ui : list ui_elem;
  bad : list string
}.

(** ** File system primitives *)

Fixpoint fs_lookup (p : string) (f : list (string * file)) : option file :=
  match f with
  | [] => None
  | (q, c) :: f' => if String.eqb p q then Some c else fs_lookup p f'
  end.

Definition fs_remove (p : string) (f : list (string * file)) :=
  filter (fun e => negb (String.eqb p (fst e))) f.

Definition set_fs (w : world) (f : list (string * file)) : world :=
  mk_world f (dirs w) (ui w) (bad w).

Definition set_dirs (w : world) (d : list string) : world :=
  mk_world (fs w) d (ui w) (bad w).

Definition set_ui (w : world) (u : list ui_elem) : world :=
  mk_world (fs w) (dirs w) u (bad w).

Definition is_bad (w : world) (p : string) : bool :=
  existsb (String.eqb p) (bad w).

(** ** The exception-state monad of Python code *)

Definition M (A : Type) : Type := world -> (exn + A) * world.

Definition ret {A} (a : A) : M A := fun w => (inr a, w).
Definition raise {A} (e : exn) : M A := fun w => (inl e, w).
Definition bind {A B} (m : M A) (k : A -> M B) : M B :=
  fun w => match m w with
           | (inl e, w') => (inl e, w')
           | (inr a, w') => k a w'
           end.

Notation "x <- m ;; k" := (bind m (fun x => k))
  (at level 61, m at next level, right associativity).
Notation "' p <- m ;; k" := (bind m (fun x => match x with p => k end))
  (at level 61, p pattern, m at next level, right associativity).
Notation "m ;;; k" := (bind m (fun _ => k))
  (at level 61, right associativity).

(** [with open(p, "wb") as f: f.write(c)]: opening creates (truncates) the
    file; a failing write leaves it empty and raises. *)
Definition write_file (p : string) (c : file) : M unit :=
  fun w =>
    if is_bad w p
    then (inl (IOError ("[Errno 28] No space left on device: '" ++ p ++ "'")%string),
          set_fs w ((p, FEmpty) :: fs w))
    else (inr tt, set_fs w ((p, c) :: fs w)).

Definition read_file (p : string) : M file :=
  fun w =>
    match fs_lookup p (fs w) with
    | Some c => (inr c, w)
    | None => (inl (IOError ("[Errno 2] No such file or directory: '" ++ p ++ "'")%string), w)
    end.

(** [os.makedirs(p, exist_ok=True)] *)
Definition makedirs (p : string) : M unit :=
  fun w => (inr tt, set_dirs w (if existsb (String.eqb p) (dirs w) then dirs w else p :: dirs w)).

Definition path_exists (p : string) : M bool :=
  fun w => (inr (match fs_lookup p (fs w) with Some _ => true | None => false end), w).

Definition os_remove (p : string) : M unit :=
  fun w => (inr tt, set_fs w (fs_remove p (fs w))).

Definition st_emit (e : ui_elem) : M unit :=
  fun w => (inr tt, set_ui w (ui w ++ [e])).

(** [os.path.join] *)
Definition path_join (a b : string) : string := (a ++ "/" ++ b)%string.

(** ** The analysis functions of [anamoly_backend.ipynb]

    The notebook is not in the sources; each definition below is modelled
    from the specification, section by section. *)

Section SpecBackend.

(** The series detector's fixed multiplier [k] (spec 4.3) and the fitted
    multivariate outlier model with its fixed contamination and seed
    (spec 4.4): one flag per feature vector. *)
Variable k : R.
Variable outlier_model : list (list Z) -> list bool.

(** *** Data Loader (spec 4.1) *)

(** Modelled from the spec: [process_traffic_data] of the notebook; required
    columns, case-sensitive. *)
Definition required_columns : list string :=
  ["Time"; "Length"; "Source"; "Destination"; "Protocol"].

Fixpoint index_of (s : string) (l : list string) : option nat :=
  match l with
  | [] => None
  | x :: l' => if String.eqb s x then Some 0%nat
               else option_map S (index_of s l')
  end.

Definition missing_columns (h : list string) : list string :=
  filter (fun c => negb (existsb (String.eqb c) h)) required_columns.

Definition cell_num (c : option cell) : option Z :=
  match c with Some (CNum z) => Some z | _ => None end.

Definition cell_text (c : option cell) : option string :=
  match c with Some (CText s) => Some s | _ => None end.

Definition parse_row (h : list string) (r : list cell) : option packet :=
  let col s := nth_error r (match index_of s h with Some i => i | None => 0%nat end) in
  match cell_num (col "Time"), cell_num (col "Length"), cell_text (col "Source"),
        cell_text (col "Destination"), cell_num (col "Protocol") with
  | Some t, Some l, Some s, Some d, Some p =>
      Some (mk_packet t l s d p None None None None None)
  | _, _, _, _, _ => None
  end.

Fixpoint parse_rows (h : list string) (rs : list (list cell)) : option (list packet) :=
  match rs with
  | [] => Some []
  | r :: rs' =>
      match parse_row h r, parse_rows h rs' with
      | Some p, Some ps => Some (p :: ps)
      | _, _ => None
      end
  end.

(** Modelled from the spec: the loader fails with a [ValidationError] when a
    required column is absent or a value is unparsable; otherwise it adds the
    derived [Timestamp] column (seconds, used for bucketing). *)
Definition load_csv (c : csv) : exn + table :=
  match missing_columns (header c) with
  | m :: _ => inl (ValidationError ("Missing required column: " ++ m)%string)
  | [] =>
      match parse_rows (header c) (rows c) with
      | Some ps => inr (mk_table (header c ++ ["Timestamp"]) ps)
      | None => inl (ValidationError "Unparsable value in a required column")
      end
  end.

(** Modelled from the spec: [process_traffic_data(path)]. *)
Definition process_traffic_data (path : string) : M table :=
  c <- read_file path ;;
  match c with
  | FCsv c' => match load_csv c' with inl e => raise e | inr t => ret t end
  | _ => raise (ValidationError "No columns to parse from file")
  end.

(** *** Traffic Aggregator (spec 4.2) *)

(** Start of the window of width [width] containing second [t]. *)
Definition window_start (width t : Z) : Z := (t / width) * width.

(** Count one record into an ordered bucket list (one row per non-empty
    window, no zero-filling). *)
Fixpoint bump (key : Z) (bs : list bucket) : list bucket :=
  match bs with
  | [] => [mk_bucket key 1 None]
  | b :: bs' =>
      if Z.eqb key (b_key b) then mk_bucket (b_key b) (b_count b + 1) (b_flag b) :: bs'
      else if Z.ltb key (b_key b) then mk_bucket key 1 None :: bs
      else b :: bump key bs'
  end.

Definition count_by (width : Z) (ps : list packet) : list bucket :=
  fold_left (fun acc p => bump (window_start width (p_time p)) acc) ps [].

(** Modelled from the spec: [generate_traffic_analysis(df)]. *)
Definition generate_traffic_analysis (df : table) : M (series * series * series) :=
  ret (mk_series "Minute_Request_Count" (count_by 60 (records df)),
       mk_series "Hourly_Request_Count" (count_by 3600 (records df)),
       mk_series "Daily_Request_Count" (count_by 86400 (records df))).

(** *** Series Anomaly Detector (spec 4.3) *)

Definition counts_R (bs : list bucket) : list R := map (fun b => IZR (b_count b)) bs.

Definition mean (xs : list R) : R := (fold_right Rplus 0 xs / INR (length xs))%R.

(** Standard deviation of the count field over the whole series. *)
Definition std (xs : list R) : R :=
  sqrt (fold_right Rplus 0 (map (fun x => (x - mean xs) ^ 2) xs) / INR (length xs))%R.

Definition is_anomalous (mu sigma : R) (c : Z) : bool :=
  if Rlt_dec (k * sigma) (Rabs (IZR c - mu)) then true else false.

Definition flag_buckets (bs : list bucket) : list bucket :=
  let mu := mean (counts_R bs) in
  let sigma := std (counts_R bs) in
  map (fun b => mk_bucket (b_key b) (b_count b) (Some (is_anomalous mu sigma (b_count b)))) bs.

(** Modelled from the spec: [detect_traffic_anomalies(series, count_field)];
    indexing a missing column raises [KeyError]. *)
Definition detect_traffic_anomalies (s : series) (field : string) : M series :=
  if String.eqb field (count_col s)
  then ret (mk_series (count_col s) (flag_buckets (buckets s)))
  else raise (KeyError field).

(** *** Plot Renderer (spec 6: the file names [app.py] displays) *)

Definition traffic_points (s : series) : list (Z * Z) :=
  map (fun b => (b_key b, b_count b)) (buckets s).

Definition anomaly_points (s : series) : list (Z * Z * bool) :=
  map (fun b => (b_key b, b_count b,
                 match b_flag b with Some true => true | _ => false end)) (buckets s).

(** Modelled from the spec: [generate_traffic_plots]. *)
Definition generate_traffic_plots (m h d : series) (dir : string) : M unit :=
  write_file (path_join dir "minute_traffic.png") (FTrafficPlot (traffic_points m)) ;;;
  write_file (path_join dir "hour_traffic.png") (FTrafficPlot (traffic_points h)) ;;;
  write_file (path_join dir "day_traffic.png") (FTrafficPlot (traffic_points d)).

(** Modelled from the spec: [generate_anomaly_plots] (minute and hour). *)
Definition generate_anomaly_plots (m h d : series) (dir : string) : M unit :=
  write_file (path_join dir "minute_anomalies.png") (FAnomalyPlot (anomaly_points m)) ;;;
  write_file (path_join dir "hour_anomalies.png") (FAnomalyPlot (anomaly_points h)).

(** *** Packet Anomaly Detector (spec 4.4) *)

(** Frequency feature: records of the same source in the same minute. *)
Definition frequency (ps : list packet) (p : packet) : Z :=
  Z.of_nat (length (filter (fun q => String.eqb (p_source q) (p_source p)
                                     && Z.eqb (window_start 60 (p_time q))
                                              (window_start 60 (p_time p))) ps)).

Definition set_frequency (f : Z) (p : packet) : packet :=
  mk_packet (p_time p) (p_length p) (p_source p) (p_destination p) (p_protocol p)
            (Some f) (p_anomaly p) (p_category p) (p_protocol_category p)
            (p_source_category p).

Definition set_anomaly (a : bool) (p : packet) : packet :=
  mk_packet (p_time p) (p_length p) (p_source p) (p_destination p) (p_protocol p)
            (p_frequency p) (Some a) (p_category p) (p_protocol_category p)
            (p_source_category p).

Definition features (p : packet) : list Z :=
  [p_length p; p_protocol p; match p_frequency p with Some f => f | None => 0 end].

Definition feature_names : list string := ["Length"; "Protocol"; "Frequency"].

(** Below this many records detection is skipped and nothing is flagged. *)
Definition min_records : nat := 10.

Fixpoint attach_flags (ps : list packet) (fl : list bool) : list packet :=
  match ps, fl with
  | [], _ => []
  | p :: ps', f :: fl' => set_anomaly f p :: attach_flags ps' fl'
  | p :: ps', [] => set_anomaly false p :: attach_flags ps' []
  end.

(** Modelled from the spec: [detect_packet_anomalies(df)]. *)
Definition detect_packet_anomalies (df : table) : M (table * list string) :=
  let ps := map (fun p => set_frequency (frequency (records df) p) p) (records df) in
  let flags := if Nat.ltb (length ps) min_records then repeat false (length ps)
               else outlier_model (map features ps) in
  ret (mk_table (columns df ++ ["Frequency"; "Anomaly"]) (attach_flags ps flags),
       feature_names).

(** *** Anomaly Categorizer (spec 4.5) *)

Definition oversized_bound : Z := 1500.
Definition common_protocols : list Z := [6; 17; 1].
Definition high_frequency_bound : Z := 100.

Definition is_flagged (p : packet) : bool :=
  match p_anomaly p with Some true => true | _ => false end.

(** Fixed ordered rules; the first that matches wins. *)
Definition category_of (p : packet) : string :=
  if p_length p >? oversized_bound then "Oversized Packet"
  else if negb (existsb (Z.eqb (p_protocol p)) common_protocols) then "Unusual Protocol"
  else if match p_frequency p with Some f => f >? high_frequency_bound | None => false end
  then "High-Frequency Source"
  else "Anomalous - Uncategorized".

Definition protocol_category_of (p : packet) : string :=
  if p_protocol p =? 6 then "TCP"
  else if p_protocol p =? 17 then "UDP"
  else if p_protocol p =? 1 then "ICMP"
  else "Other".

Definition source_category_of (p : packet) : string :=
  if String.prefix "192.168." (p_source p) || String.prefix "10." (p_source p)
  then "Internal" else "External".

(** Flagged records get a category; unflagged records get none.  The
    protocol and source tags are attached to every record. *)
Definition categorize_record (p : packet) : packet :=
  mk_packet (p_time p) (p_length p) (p_source p) (p_destination p) (p_protocol p)
            (p_frequency p) (p_anomaly p)
            (if is_flagged p then Some (category_of p) else None)
            (Some (protocol_category_of p)) (Some (source_category_of p)).

(** Modelled from the spec: [categorize_anomalies(df)]. *)
Definition categorize_anomalies (df : table) : M table :=
  ret (mk_table (columns df ++ ["Anomaly_Category"; "Protocol_Category"; "Source_Category"])
                (map categorize_record (records df))).

(** *** Report Generator (spec 4.6) *)

(** [Series.value_counts()]: label counts in first-seen order, missing labels
    dropped. *)
Fixpoint count_label (l : string) (acc : list (string * Z)) : list (string * Z) :=
  match acc with
  | [] => [(l, 1)]
  | (l', n) :: acc' => if String.eqb l l' then (l', n + 1) :: acc'
                       else (l', n) :: count_label l acc'
  end.

Definition value_counts (labels : list (option string)) : list (string * Z) :=
  fold_left (fun acc o => match o with Some l => count_label l acc | None => acc end)
            labels [].

Definition percentage (flagged total : Z) : Q :=
  if total =? 0 then 0%Q else (inject_Z (100 * flagged) / inject_Z total)%Q.

Definition anomaly_summary_of (df : table) : summary :=
  let outl := filter is_flagged (records df) in
  mk_summary (Z.of_nat (length (records df))) (Z.of_nat (length outl))
             (percentage (Z.of_nat (length outl)) (Z.of_nat (length (records df))))
             (value_counts (map p_category outl))
             (value_counts (map p_protocol_category outl))
             (value_counts (map p_source_category outl)).

(** Modelled from the spec: [generate_anomaly_report(df, output_dir)]; the
    two reports carry the names the page offers them under. *)
Definition generate_anomaly_report (df : table) (dir : string) : M (summary * table) :=
  let outl := mk_table (columns df) (filter is_flagged (records df)) in
  write_file (path_join dir "final_anomalies_report.csv") (FReport df) ;;;
  write_file (path_join dir "outliers_detected.csv") (FReport outl) ;;;
  ret (anomaly_summary_of df, outl).

End SpecBackend.

(** ** The script [app.py] *)

(** The values the notebook binds in the script's globals, by the shape the
    script calls them with; [GOther] is anything else (modules, data). *)
Inductive gvalue : Type :=
| GProcess (f : string -> M table)
| GAnalysis (f : table -> M (series * series * series))
| GDetectSeries (f : series -> string -> M series)
| GPlots (f : series -> series -> series -> string -> M unit)
| GDetectPackets (f : table -> M (table * list string))
| GCategorize (f : table -> M table)
| GReport (f : table -> string -> M (summary * table))
| GOther.

(** A top-level statement of a code cell: a binding, or code run for its
    effect (which may raise). *)
Inductive stmt : Type :=
| SDef (name : string) (v : gvalue)
| SRun (m : M unit).

Record nb_cell : Type := mk_cell {
  cell_type : string;
  source : list stmt
}.

Definition notebook : Type := list nb_cell.

(** The script's global namespace, newest binding first. *)
Definition globals : Type := list (string * gvalue).

Fixpoint g_lookup (n : string) (g : globals) : option gvalue :=
  match g with
  | [] => None
  | (m, v) :: g' => if String.eqb n m then Some v else g_lookup n g'
  end.

(** [exec(cell.source, globals())] *)
Fixpoint exec_source (s : list stmt) (g : globals) : M globals :=
  match s with
  | [] => ret g
  | SDef n v :: s' => exec_source s' ((n, v) :: g)
  | SRun m :: s' => m ;;; exec_source s' g
  end.

Fixpoint exec_cells (cells : notebook) (g : globals) : M globals :=
  match cells with
  | [] => ret g
  | c :: cs =>
      if String.eqb (cell_type c) "code"
      then g' <- exec_source (source c) g ;; exec_cells cs g'
      else exec_cells cs g
  end.

(** [load_ipynb_module('anamoly_backend.ipynb')]; [None] is a missing
    notebook file. *)
Definition load_ipynb_module (nb : option notebook) (g : globals) : M globals :=
  match nb with
  | None => raise (IOError "[Errno 2] No such file or directory: 'anamoly_backend.ipynb'")
  | Some cells => exec_cells cells g
  end.

(** Resolving a global name at a call site. *)
Definition lookup_fn {F} (proj : gvalue -> option F) (n : string) (g : globals) : M F :=
  match g_lookup n g with
  | None => raise (NameError ("name '" ++ n ++ "' is not defined")%string)
  | Some v => match proj v with
              | Some f => ret f
              | None => raise (TypeError ("'" ++ n ++ "' cannot be called this way")%string)
              end
  end.

Definition as_process v := match v with GProcess f => Some f | _ => None end.
Definition as_analysis v := match v with GAnalysis f => Some f | _ => None end.
Definition as_detect_series v := match v with GDetectSeries f => Some f | _ => None end.
Definition as_plots v := match v with GPlots f => Some f | _ => None end.
Definition as_detect_packets v := match v with GDetectPackets f => Some f | _ => None end.
Definition as_categorize v := match v with GCategorize f => Some f | _ => None end.
Definition as_report v := match v with GReport f => Some f | _ => None end.

(** The globals of the script before the notebook is loaded. *)
Definition app_globals : globals :=
  [("load_ipynb_module", GOther); ("sklearn", GOther); ("seaborn", GOther);
   ("matplotlib", GOther); ("nbformat", GOther); ("os", GOther); ("pd", GOther);
   ("st", GOther)].

Definition temp_file_path : string := "temp_upload.csv".
Definition output_dir : string := "output".
Definition plots_dir : string := path_join output_dir "plots".
Definition reports_dir : string := path_join output_dir "reports".

(** Lines 49-69, the processing under [st.spinner] (a transient element,
    not recorded). *)
Definition process_all (g : globals)
  : M (table * series * series * series * summary * table) :=
  process_traffic_data <- lookup_fn as_process "process_traffic_data" g ;;
  df <- process_traffic_data temp_file_path ;;
  generate_traffic_analysis <- lookup_fn as_analysis "generate_traffic_analysis" g ;;
  '(tm, th, td) <- generate_traffic_analysis df ;;
  detect_traffic_anomalies <- lookup_fn as_detect_series "detect_traffic_anomalies" g ;;
  tm <- detect_traffic_anomalies tm "Minute_Request_Count" ;;
  detect_traffic_anomalies <- lookup_fn as_detect_series "detect_traffic_anomalies" g ;;
  th <- detect_traffic_anomalies th "Hourly_Request_Count" ;;
  detect_traffic_anomalies <- lookup_fn as_detect_series "detect_traffic_anomalies" g ;;
  td <- detect_traffic_anomalies td "Daily_Request_Count" ;;
  makedirs plots_dir ;;;
  makedirs reports_dir ;;;
  generate_traffic_plots <- lookup_fn as_plots "generate_traffic_plots" g ;;
  generate_traffic_plots tm th td plots_dir ;;;
  generate_anomaly_plots <- lookup_fn as_plots "generate_anomaly_plots" g ;;
  generate_anomaly_plots tm th td plots_dir ;;;
  detect_packet_anomalies <- lookup_fn as_detect_packets "detect_packet_anomalies" g ;;
  '(df, features_used) <- detect_packet_anomalies df ;;
  categorize_anomalies <- lookup_fn as_categorize "categorize_anomalies" g ;;
  df <- categorize_anomalies df ;;
  generate_anomaly_report <- lookup_fn as_report "generate_anomaly_report" g ;;
  '(anomaly_summary, outliers) <- generate_anomaly_report df reports_dir ;;
  ret (df, tm, th, td, anomaly_summary, outliers).

(** [st.image(path)] shows the file as it is on disk at that moment. *)
Definition st_image (p : string) : M unit :=
  fun w => (inr tt, set_ui w (ui w ++ [UImage p (fs_lookup p (fs w))])).

(** [f"{x:.2f}"]: the value rounded to two decimals (half up). *)
Definition round2 (q : Q) : Q := (inject_Z (Qfloor (q * 100 + (1 # 2))) / 100)%Q.

(** Lines 71-139, the result tabs. *)
Definition show_results (df : table) (anomaly_summary : summary) (outliers : table)
  : M unit :=
  st_emit (USuccess "Analysis complete!") ;;;
  st_emit (UTabs ["Data Overview"; "Traffic Analysis"; "Anomaly Detection"; "Download Reports"]) ;;;
  st_emit (UHeader "Data Overview") ;;;
  st_emit (USubheader "Processed Data Sample") ;;;
  st_emit (UDataframe (mk_table (columns df) (firstn 10 (records df)))) ;;;
  st_emit (USubheader "Dataset Statistics") ;;;
  st_emit (UTotalRecords (length (records df))) ;;;
  st_emit (UFeatures (columns df)) ;;;
  st_emit (UHeader "Traffic Analysis") ;;;
  st_emit (USubheader "Traffic Per Minute") ;;;
  st_image (plots_dir ++ "/minute_traffic.png") ;;;
  st_emit (USubheader "Traffic Per Hour") ;;;
  st_image (plots_dir ++ "/hour_traffic.png") ;;;
  st_emit (USubheader "Traffic Per Day") ;;;
  st_image (plots_dir ++ "/day_traffic.png") ;;;
  st_emit (UHeader "Anomaly Detection Results") ;;;
  st_emit (USubheader "Anomaly Summary") ;;;
  st_emit (USummaryLine (anomalies_detected anomaly_summary)
                        (round2 (anomaly_percentage anomaly_summary))) ;;;
  st_emit (UColumns 3) ;;;
  st_emit (UWrite "**Anomaly Categories**") ;;;
  st_emit (USeries (anomaly_categories anomaly_summary)) ;;;
  st_emit (UWrite "**Protocol Categories**") ;;;
  st_emit (USeries (protocol_categories anomaly_summary)) ;;;
  st_emit (UWrite "**Source Categories**") ;;;
  st_emit (USeries (source_categories anomaly_summary)) ;;;
  st_emit (USubheader "Minute-Level Anomalies") ;;;
  st_image (plots_dir ++ "/minute_anomalies.png") ;;;
  st_emit (USubheader "Hour-Level Anomalies") ;;;
  st_image (plots_dir ++ "/hour_anomalies.png") ;;;
  st_emit (USubheader "Anomaly Details") ;;;
  st_emit (UDataframe (mk_table (columns outliers) (firstn 20 (records outliers)))) ;;;
  st_emit (UHeader "Download Reports") ;;;
  st_emit (UDownload "Download Full Report" "final_anomalies_report.csv" df) ;;;
  st_emit (UDownload "Download Outliers Only" "outliers_detected.csv" outliers).

Definition guidance : string :=
  "Please make sure your CSV file has the required columns: Time, Length, Source, Destination, Protocol".

(** [except Exception as e:] (lines 141-143). *)
Definition handle_exception (e : exn) : M unit :=
  st_emit (UError ("An error occurred during processing: " ++ exn_str e)%string) ;;;
  st_emit (UWrite guidance).

(** [finally:] (lines 145-148). *)
Definition cleanup : M unit :=
  b <- path_exists "temp_upload.csv" ;;
  if b then os_remove "temp_upload.csv" else ret tt.

Definition try_except (body : M unit) (handler : exn -> M unit) : M unit :=
  fun w => match body w with
           | (inl e, w') => handler e w'
           | (inr u, w') => (inr u, w')
           end.

(** A [finally] clause runs after the body whatever its outcome; an exception
    of its own would replace the body's. *)
Definition try_finally (body : M unit) (fin : M unit) : M unit :=
  fun w => let (r, w') := body w in
           match fin w' with
           | (inl e, w'') => (inl e, w'')
           | (inr _, w'') => (r, w'')
           end.

(** The [try] block, lines 40-139. *)
Definition try_body (nb : option notebook) (uploaded_file : csv) : M unit :=
  write_file temp_file_path (FCsv uploaded_file) ;;;
  g <- load_ipynb_module nb app_globals ;;
  '(df, _, _, _, anomaly_summary, outliers) <- process_all g ;;
  show_results df anomaly_summary outliers.

(** Lines 38-148, one analysis run on an uploaded file. *)
Definition analysis_run (nb : option notebook) (uploaded_file : csv) : M unit :=
  try_finally (try_except (try_body nb uploaded_file) handle_exception) cleanup.

(** The whole script, run once per interaction ([st.set_page_config] shows
    nothing and is left out). *)
Definition app (nb : option notebook) (uploaded_file : option csv) : M unit :=
  st_emit (UTitle "Website Traffic Anomaly Detection") ;;;
  st_emit (UMarkdown "This application analyzes website traffic data to detect potential anomalies and security threats. Upload your traffic data CSV file to get started.") ;;;
  st_emit (UHeader "Upload Traffic Data") ;;;
  st_emit (UFileUploader "Choose a CSV file") ;;;
  match uploaded_file with
  | Some u => analysis_run nb u
  | None =>
      st_emit (UInfo "Please upload a CSV file with the following columns: Time, Length, Source, Destination, Protocol") ;;;
      st_emit USampleData
  end.

Definition run_app (nb : option notebook) (uploaded_file : option csv) (w : world) : world :=
  snd (app nb uploaded_file w).

(** The notebook as the specification describes it: one code cell binding
    the analysis functions of section [SpecBackend]. *)
Definition spec_notebook (k : R) (outlier_model : list (list Z) -> list bool) : notebook :=
  [mk_cell "markdown" [];
   mk_cell "code"
     [SDef "process_traffic_data" (GProcess process_traffic_data);
      SDef "generate_traffic_analysis" (GAnalysis generate_traffic_analysis);
      SDef "detect_traffic_anomalies" (GDetectSeries (detect_traffic_anomalies k));
      SDef "generate_traffic_plots" (GPlots generate_traffic_plots);
      SDef "generate_anomaly_plots" (GPlots generate_anomaly_plots);
      SDef "detect_packet_anomalies" (GDetectPackets (detect_packet_anomalies outlier_model));
      SDef "categorize_anomalies" (GCategorize categorize_anomalies);
      SDef "generate_anomaly_report" (GReport generate_anomaly_report)]].

(** ** Bucket arithmetic *)

Fixpoint sum_counts (bs : list bucket) : Z :=
  match bs with
  | [] => 0
  | b :: bs' => b_count b + sum_counts bs'
  end.

(** Total count the buckets with window start [j] hold. *)
Definition key_count (j : Z) (bs : list bucket) : Z :=
  sum_counts (filter (fun b => Z.eqb (b_key b) j) bs).

(** Number of records whose window (of width [width]) starts at [j]. *)
Definition records_in_window (width j : Z) (ps : list packet) : nat :=
  length (filter (fun p => Z.eqb (window_start width (p_time p)) j) ps).

(** ** Proofs: Traffic Aggregator *)

Lemma bump_sum (key : Z) (bs : list bucket) :
  sum_counts (bump key bs) = sum_counts bs + 1.
Proof.
  induction bs as [|b bs IH]; cbn -[Z.add]; [reflexivity|].
  destruct (Z.eqb key (b_key b)); [cbn -[Z.add]; lia|].
  destruct (Z.ltb key (b_key b)); cbn -[Z.add]; [lia|].
  rewrite IH; lia.
Qed.

Lemma bump_key_count (key j : Z) (bs : list bucket) :
  key_count j (bump key bs) = key_count j bs + (if Z.eqb key j then 1 else 0).
Proof.
  unfold key_count.
  induction bs as [|b bs IH]; cbn -[Z.add].
  - destruct (Z.eqb key j); reflexivity.
  - destruct (Z.eqb key (b_key b)) eqn:Ekb.
    + apply Z.eqb_eq in Ekb. cbn -[Z.add]. rewrite <- Ekb.
      destruct (Z.eqb key j); cbn -[Z.add]; lia.
    + destruct (Z.ltb key (b_key b)) eqn:Lkb.
      * cbn -[Z.add]. destruct (Z.eqb key j); cbn -[Z.add]; lia.
      * cbn -[Z.add]. destruct (Z.eqb (b_key b) j); cbn -[Z.add]; rewrite IH; lia.
Qed.

Lemma count_by_key_count (width j : Z) (ps : list packet) (acc : list bucket) :
  key_count j (fold_left (fun acc p => bump (window_start width (p_time p)) acc) ps acc)
  = key_count j acc + Z.of_nat (records_in_window width j ps).
Proof.
  unfold records_in_window.
  revert acc; induction ps as [|p ps IH]; intros acc; simpl; [lia|].
  rewrite IH, bump_key_count.
  destruct (Z.eqb (window_start width (p_time p)) j); simpl; lia.
Qed.

Lemma count_by_sum (width : Z) (ps : list packet) (acc : list bucket) :
  sum_counts (fold_left (fun acc p => bump (window_start width (p_time p)) acc) ps acc)
  = sum_counts acc + Z.of_nat (length ps).
Proof.
  revert acc; induction ps as [|p ps IH]; intros acc; simpl; [lia|].
  rewrite IH, bump_sum; lia.
Qed.

(** Window starts strictly increase along a bucket list. *)
Lemma bump_hdrel (x key : Z) (bs : list bucket) :
  HdRel Z.lt x (map b_key bs) -> x < key -> HdRel Z.lt x (map b_key (bump key bs)).
Proof.
  intros H Hx. destruct bs as [|b bs]; simpl.
  - constructor; exact Hx.
  - apply HdRel_inv in H.
    destruct (Z.eqb key (b_key b)); [simpl; constructor; exact H|].
    destruct (Z.ltb key (b_key b)); simpl; constructor; assumption.
Qed.

Lemma bump_sorted (key : Z) (bs : list bucket) :
  Sorted Z.lt (map b_key bs) -> Sorted Z.lt (map b_key (bump key bs)).
Proof.
  induction bs as [|b bs IH]; intros Hs; simpl.
  - repeat constructor.
  - apply Sorted_inv in Hs as [Hs Hd].
    destruct (Z.eqb key (b_key b)) eqn:E.
    + simpl. constructor; assumption.
    + destruct (Z.ltb key (b_key b)) eqn:L.
      * simpl. apply Z.ltb_lt in L. constructor; [constructor; assumption|].
        constructor; exact L.
      * simpl. apply Z.eqb_neq in E. apply Z.ltb_ge in L.
        constructor; [apply IH; exact Hs|].
        apply bump_hdrel; [exact Hd|lia].
Qed.

Lemma count_by_sorted (width : Z) (ps : list packet) (acc : list bucket) :
  Sorted Z.lt (map b_key acc) ->
  Sorted Z.lt (map b_key (fold_left (fun acc p => bump (window_start width (p_time p)) acc) ps acc)).
Proof.
  revert acc; induction ps as [|p ps IH]; intros acc H; simpl; [exact H|].
  apply IH, bump_sorted, H.
Qed.

(** Everything one granularity of [generate_traffic_analysis] guarantees. *)
Definition partitions (width : Z) (ps : list packet) (s : series) : Prop :=
  Sorted Z.lt (map b_key (buckets s)) /\
  (forall j, key_count j (buckets s) = Z.of_nat (records_in_window width j ps)) /\
  sum_counts (buckets s) = Z.of_nat (length ps).

Lemma count_by_partitions (width : Z) (ps : list packet) (col : string) :
  partitions width ps (mk_series col (count_by width ps)).
Proof.
  unfold partitions, count_by; simpl. split; [|split].
  - apply count_by_sorted; constructor.
  - intros j. rewrite count_by_key_count. reflexivity.
  - rewrite count_by_sum. reflexivity.
Qed.

(** C1.  [generate_traffic_analysis] succeeds on every table; at each
    granularity (minute, hour, day) the buckets have distinct, increasing
    window starts, the bucket of window [j] counts exactly the records whose
    timestamp falls in window [j] (so each record is counted in exactly one
    bucket), and the counts sum to the number of input records. *)
Theorem traffic_analysis_partitions_records (df : table) (w : world) :
  exists tm th td,
    generate_traffic_analysis df w = (inr (tm, th, td), w) /\
    partitions 60 (records df) tm /\
    partitions 3600 (records df) th /\
    partitions 86400 (records df) td.
Proof.
  do 3 eexists. split; [reflexivity|].
  split; [|split]; apply count_by_partitions.
Qed.

(** ** Proofs: Series Anomaly Detector *)

Lemma sum_repeat (x : R) (n : nat) :
  fold_right Rplus 0%R (repeat x n) = (INR n * x)%R.
Proof.
  induction n as [|n IH]; simpl repeat; cbn [fold_right].
  - simpl; ring.
  - rewrite IH, S_INR; ring.
Qed.

Lemma counts_R_const (c : Z) (bs : list bucket) :
  Forall (fun b => b_count b = c) bs -> counts_R bs = repeat (IZR c) (length bs).
Proof.
  induction 1 as [|b bs Hb _ IH]; simpl; [reflexivity|].
  unfold counts_R in IH |- *; simpl. rewrite Hb, IH; reflexivity.
Qed.

Lemma mean_repeat (x : R) (n : nat) :
  n <> 0%nat -> mean (repeat x n) = x.
Proof.
  intros Hn. unfold mean. rewrite sum_repeat, repeat_length.
  field. apply not_0_INR; exact Hn.
Qed.

Lemma std_repeat (x : R) (n : nat) :
  n <> 0%nat -> std (repeat x n) = 0%R.
Proof.
  intros Hn. unfold std. rewrite (mean_repeat x n Hn).
  rewrite map_repeat. replace ((x - x) ^ 2)%R with 0%R by ring.
  rewrite sum_repeat, Rmult_0_r. unfold Rdiv. rewrite Rmult_0_l. apply sqrt_0.
Qed.

Lemma flag_buckets_spec (k : R) (bs : list bucket) (b' : bucket) :
  In b' (flag_buckets k bs) <->
  exists b, In b bs /\
    b' = mk_bucket (b_key b) (b_count b)
           (Some (is_anomalous k (mean (counts_R bs)) (std (counts_R bs)) (b_count b))).
Proof.
  unfold flag_buckets. rewrite in_map_iff.
  split; intros [b [H1 H2]]; exists b; split; auto.
Qed.

Lemma is_anomalous_iff (k mu sigma : R) (c : Z) :
  is_anomalous k mu sigma c = true <-> (k * sigma < Rabs (IZR c - mu))%R.
Proof.
  unfold is_anomalous. destruct (Rlt_dec _ _); split; intros; auto; discriminate.
Qed.

(** C2.  When the field named is the series' count column,
    [detect_traffic_anomalies] keeps every bucket (window and count) and
    flags a bucket exactly when [|count - mu| > k * sigma], with [mu] and
    [sigma] the mean and standard deviation of the counts of the whole
    series; on a series whose counts are all equal no bucket is flagged,
    whatever [k]. *)
Theorem series_detector_rule (k : R) (s : series) (field : string) (w : world) :
  field = count_col s ->
  exists s',
    detect_traffic_anomalies k s field w = (inr s', w) /\
    count_col s' = count_col s /\
    map (fun b => (b_key b, b_count b)) (buckets s') =
      map (fun b => (b_key b, b_count b)) (buckets s) /\
    (forall b, In b (buckets s') ->
       b_flag b <> None /\
       (b_flag b = Some true <->
        (k * std (counts_R (buckets s)) <
         Rabs (IZR (b_count b) - mean (counts_R (buckets s))))%R)) /\
    (forall c, Forall (fun b => b_count b = c) (buckets s) ->
       forall b, In b (buckets s') -> b_flag b = Some false).
Proof.
  intros ->. unfold detect_traffic_anomalies. rewrite String.eqb_refl.
  eexists. split; [reflexivity|]. cbn [count_col buckets].
  split; [reflexivity|]. split.
  { unfold flag_buckets. rewrite map_map. reflexivity. }
  split.
  - intros b' Hb'. apply flag_buckets_spec in Hb' as [b [Hb ->]]. cbn.
    split; [discriminate|].
    rewrite <- is_anomalous_iff. split; [intros H; injection H; auto|intros ->; reflexivity].
  - intros c Hc b' Hb'. apply flag_buckets_spec in Hb' as [b [Hb ->]]. cbn.
    f_equal. apply not_true_is_false. rewrite is_anomalous_iff.
    assert (Hn : length (buckets s) <> 0%nat) by (destruct (buckets s); [contradiction|discriminate]).
    rewrite (counts_R_const c _ Hc), mean_repeat, std_repeat by exact Hn.
    rewrite Forall_forall in Hc. rewrite (Hc b Hb).
    rewrite Rmult_0_r, Rminus_diag, Rabs_R0. apply Rlt_irrefl.
Qed.

(** The detector applied to the constant series 3, 3, 3 with [k = 2]. *)
Lemma series_detector_rule_witness :
  exists s', detect_traffic_anomalies 2%R
    (mk_series "Minute_Request_Count" [mk_bucket 0 3 None; mk_bucket 60 3 None; mk_bucket 120 3 None])
    "Minute_Request_Count" (mk_world [] [] [] []) = (inr s', mk_world [] [] [] []) /\
    forall b, In b (buckets s') -> b_flag b = Some false.
Proof.
  destruct (series_detector_rule 2%R
    (mk_series "Minute_Request_Count" [mk_bucket 0 3 None; mk_bucket 60 3 None; mk_bucket 120 3 None])
    "Minute_Request_Count" (mk_world [] [] [] []) eq_refl) as [s' [H1 [_ [_ [_ H5]]]]].
  exists s'. split; [exact H1|]. apply (H5 3).
  repeat constructor.
Defined.

(** ** Proofs: Anomaly Categorizer *)

Definition has_category (p : packet) : bool :=
  match p_category p with Some _ => true | None => false end.

Lemma categorize_record_flag (p : packet) :
  p_anomaly (categorize_record p) = p_anomaly p.
Proof. reflexivity. Qed.

Lemma categorize_record_category (p : packet) :
  has_category (categorize_record p) = is_flagged (categorize_record p).
Proof.
  unfold has_category, categorize_record; unfold is_flagged; cbn.
  destruct (p_anomaly p) as [[|]|]; reflexivity.
Qed.

Lemma filter_map_categorize (ps : list packet) :
  length (filter has_category (map categorize_record ps)) =
  length (filter is_flagged ps).
Proof.
  induction ps as [|p ps IH]; [reflexivity|]. cbn [map filter].
  rewrite categorize_record_category.
  replace (is_flagged (categorize_record p)) with (is_flagged p) by reflexivity.
  destruct (is_flagged p); cbn [length]; rewrite IH; reflexivity.
Qed.

(** C3.  [categorize_anomalies] succeeds on every table (in particular on
    every table [detect_packet_anomalies] returns), leaves the anomaly flags
    untouched, gives a category to exactly the flagged records (exactly one:
    the [p_category] column holds a single label), so the number of
    categorized records equals the number of records the detector flagged. *)
Theorem categorize_keeps_flag_count (df : table) (w : world) :
  exists df',
    categorize_anomalies df w = (inr df', w) /\
    map p_anomaly (records df') = map p_anomaly (records df) /\
    (forall p, In p (records df') ->
       (is_flagged p = true <-> exists c, p_category p = Some c)) /\
    length (filter is_flagged (records df')) = length (filter is_flagged (records df)) /\
    length (filter has_category (records df')) = length (filter is_flagged (records df)).
Proof.
  eexists. split; [reflexivity|]. cbn [records].
  split; [|split; [|split]].
  - rewrite map_map. reflexivity.
  - intros p Hp. apply in_map_iff in Hp as [q [<- _]].
    change (is_flagged (categorize_record q)) with (is_flagged q).
    unfold categorize_record; cbn [p_category]. destruct (is_flagged q).
    + split; [intros _; eexists; reflexivity|auto].
    + split; [discriminate|intros [c Hc]; discriminate].
  - induction (records df) as [|p ps IH]; [reflexivity|]. cbn [map filter].
    replace (is_flagged (categorize_record p)) with (is_flagged p) by reflexivity.
    destruct (is_flagged p); cbn [length]; rewrite IH; reflexivity.
  - apply filter_map_categorize.
Qed.

(** ** Proofs: Report Generator *)

Fixpoint sum_vc (l : list (string * Z)) : Z :=
  match l with
  | [] => 0
  | (_, n) :: l' => n + sum_vc l'
  end.

Definition count_some (labels : list (option string)) : nat :=
  length (filter (fun o => match o with Some _ => true | None => false end) labels).

Lemma count_label_sum (l : string) (acc : list (string * Z)) :
  sum_vc (count_label l acc) = sum_vc acc + 1.
Proof.
  induction acc as [|[l' n] acc IH]; cbn -[Z.add]; [reflexivity|].
  destruct (String.eqb l l'); cbn -[Z.add]; [lia|]. rewrite IH; lia.
Qed.

Lemma value_counts_sum_acc (labels : list (option string)) (acc : list (string * Z)) :
  sum_vc (fold_left (fun acc o => match o with Some l => count_label l acc | None => acc end)
                    labels acc)
  = sum_vc acc + Z.of_nat (count_some labels).
Proof.
  unfold count_some. revert acc.
  induction labels as [|[l|] labels IH]; intros acc; cbn -[Z.add Z.of_nat]; [lia| |].
  - rewrite IH, count_label_sum. cbn [length]. lia.
  - rewrite IH. reflexivity.
Qed.

Lemma value_counts_sum (labels : list (option string)) :
  sum_vc (value_counts labels) = Z.of_nat (count_some labels).
Proof. unfold value_counts. rewrite value_counts_sum_acc. reflexivity. Qed.

Lemma count_some_all (f : packet -> option string) (ps : list packet) :
  (forall p, In p ps -> f p <> None) -> count_some (map f ps) = length ps.
Proof.
  unfold count_some. induction ps as [|p ps IH]; intros H; [reflexivity|]. cbn [map filter].
  destruct (f p) eqn:E; [|exfalso; apply (H p); [left; reflexivity|exact E]].
  cbn [length]. rewrite IH; [reflexivity|]. intros q Hq; apply H; right; exact Hq.
Qed.

(** Displaying with two decimals moves the percentage by at most 0.005. *)
Lemma round2_close (q : Q) : (Qabs (round2 q - q) <= 1 # 200)%Q.
Proof.
  unfold round2.
  pose proof (Qfloor_le (q * 100 + (1 # 2))) as H1.
  pose proof (Qlt_floor (q * 100 + (1 # 2))) as H2.
  rewrite inject_Z_plus in H2.
  set (F := inject_Z (Qfloor (q * 100 + (1 # 2)))) in *.
  clearbody F. change (inject_Z 1) with 1%Q in H2.
  unfold Qdiv. change (/ 100)%Q with (1 # 100)%Q.
  apply Qabs_case; intros _; Lqa.lra.
Qed.

(** The flagged records of an annotated table carry their three labels. *)
Definition annotated (df : table) : Prop :=
  forall p, In p (records df) -> is_flagged p = true ->
    p_category p <> None /\ p_protocol_category p <> None /\ p_source_category p <> None.

Lemma value_counts_flagged (f : packet -> option string) (ps : list packet) :
  (forall p, In p ps -> is_flagged p = true -> f p <> None) ->
  sum_vc (value_counts (map f (filter is_flagged ps))) = Z.of_nat (length (filter is_flagged ps)).
Proof.
  intros H. rewrite value_counts_sum, count_some_all; [reflexivity|].
  intros p Hp. apply filter_In in Hp as [Hp Hf]. apply H; assumption.
Qed.

(** C4.  When the two report files can be written, [generate_anomaly_report]
    on an annotated table returns the flagged records as [outliers] and a
    summary whose percentage is [100 * flagged / total] (for a non-empty
    table), whose displayed two-decimal value is within 0.005 of it, and
    whose three grouping tables each sum to the flagged count; with no
    flagged record it still succeeds, with empty groupings. *)
Theorem anomaly_report_consistent (df : table) (dir : string) (w : world) :
  annotated df -> bad w = [] ->
  exists sm outliers w',
    generate_anomaly_report df dir w = (inr (sm, outliers), w') /\
    records outliers = filter is_flagged (records df) /\
    total_records sm = Z.of_nat (length (records df)) /\
    anomalies_detected sm = Z.of_nat (length (records outliers)) /\
    (total_records sm > 0 ->
       anomaly_percentage sm =
         (inject_Z (100 * anomalies_detected sm) / inject_Z (total_records sm))%Q) /\
    (Qabs (round2 (anomaly_percentage sm) - anomaly_percentage sm) <= 1 # 200)%Q /\
    sum_vc (anomaly_categories sm) = anomalies_detected sm /\
    sum_vc (protocol_categories sm) = anomalies_detected sm /\
    sum_vc (source_categories sm) = anomalies_detected sm /\
    (anomalies_detected sm = 0 ->
       anomaly_categories sm = [] /\ protocol_categories sm = [] /\
       source_categories sm = []).
Proof.
  intros Hann Hbad. destruct w as [f d u b]; cbn in Hbad; subst b.
  do 3 eexists. split; [reflexivity|]. cbn [records anomaly_summary_of
    total_records anomalies_detected anomaly_percentage anomaly_categories
    protocol_categories source_categories].
  split; [reflexivity|]. split; [reflexivity|]. split; [reflexivity|].
  split.
  { intros Hpos. unfold percentage.
    destruct (Z.eqb _ 0) eqn:E; [apply Z.eqb_eq in E; lia|reflexivity]. }
  split; [apply round2_close|].
  split; [|split; [|split]].
  - apply value_counts_flagged. intros p Hp Hf; apply (Hann p Hp Hf).
  - apply value_counts_flagged. intros p Hp Hf; apply (Hann p Hp Hf).
  - apply value_counts_flagged. intros p Hp Hf; apply (Hann p Hp Hf).
  - intros H0. destruct (filter is_flagged (records df)); [|cbn in H0; lia].
    repeat split.
Qed.

(** The report on a one-record annotated, flagged table. *)
Lemma anomaly_report_consistent_witness :
  exists sm outliers w',
    generate_anomaly_report
      (mk_table ["Time"]
         [mk_packet 0 9000 "8.8.8.8" "10.0.0.1" 6 (Some 1) (Some true)
            (Some "Oversized Packet") (Some "TCP") (Some "External")])
      "output/reports" (mk_world [] [] [] []) = (inr (sm, outliers), w') /\
    sum_vc (anomaly_categories sm) = anomalies_detected sm.
Proof.
  assert (Hann : annotated
    (mk_table ["Time"]
       [mk_packet 0 9000 "8.8.8.8" "10.0.0.1" 6 (Some 1) (Some true)
          (Some "Oversized Packet") (Some "TCP") (Some "External")])).
  { intros p [<-|[]] _. cbn. repeat split; discriminate. }
  destruct (anomaly_report_consistent _ "output/reports" (mk_world [] [] [] []) Hann eq_refl)
    as [sm [outliers [w' [H1 [_ [_ [_ [_ [_ [H7 _]]]]]]]]]].
  exists sm, outliers, w'. split; [exact H1|exact H7].
Defined.

(** ** Proofs: the script's [try]/[except]/[finally] *)


Lemma fs_remove_absent (p : string) (f : list (string * file)) :
  fs_lookup p f = None -> fs_remove p f = f.
Proof.
  unfold fs_remove. induction f as [|[q c] f IH]; [reflexivity|]. cbn.
  destruct (String.eqb p q); cbn; [discriminate|]. intros H; f_equal; apply IH, H.
Qed.

Lemma cleanup_effect (w : world) :
  cleanup w = (inr tt, set_fs w (fs_remove temp_file_path (fs w))).
Proof.
  unfold cleanup, bind, path_exists, os_remove, ret.
  destruct (fs_lookup "temp_upload.csv" (fs w)) eqn:E; [reflexivity|].
  unfold temp_file_path. rewrite fs_remove_absent by exact E. destruct w; reflexivity.
Qed.

Lemma handle_exception_effect (e : exn) (w : world) :
  handle_exception e w =
  (inr tt, set_ui w (ui w ++ [UError ("An error occurred during processing: " ++ exn_str e)%string;
                              UWrite guidance])).
Proof.
  destruct w as [f d u b]. unfold handle_exception, bind, st_emit. cbn [ui set_ui].
  rewrite <- app_assoc. reflexivity.
Qed.

(** The outcome of an analysis run in terms of its [try] block. *)
Lemma analysis_run_effect (nb : option notebook) (u : csv) (w : world) :
  analysis_run nb u w =
  match try_body nb u w with
  | (inl e, w1) =>
      (inr tt, mk_world (fs_remove temp_file_path (fs w1)) (dirs w1)
                 (ui w1 ++ [UError ("An error occurred during processing: " ++ exn_str e)%string;
                            UWrite guidance]) (bad w1))
  | (inr _, w1) => (inr tt, mk_world (fs_remove temp_file_path (fs w1)) (dirs w1) (ui w1) (bad w1))
  end.
Proof.
  unfold analysis_run, try_finally, try_except.
  destruct (try_body nb u w) as [[e|[]] w1].
  - rewrite handle_exception_effect, cleanup_effect. reflexivity.
  - rewrite cleanup_effect. reflexivity.
Qed.





(** ** Proofs: loading the notebook and calling into it *)

Definition is_code (c : nb_cell) : bool := String.eqb (cell_type c) "code".

Definition is_def (s : stmt) : bool :=
  match s with SDef _ _ => true | SRun _ => false end.

(** A notebook whose code cells only bind names. *)
Definition pure_notebook (cells : notebook) : bool :=
  forallb (fun c => forallb is_def (source c)) cells.

Fixpoint bind_defs (s : list stmt) (g : globals) : globals :=
  match s with
  | [] => g
  | SDef n v :: s' => bind_defs s' ((n, v) :: g)
  | SRun _ :: s' => bind_defs s' g
  end.

(** The globals after the code cells' bindings. *)
Fixpoint defs_of (cells : notebook) (g : globals) : globals :=
  match cells with
  | [] => g
  | c :: cs => if is_code c then defs_of cs (bind_defs (source c) g) else defs_of cs g
  end.

Lemma bind_inr {A B} (m : M A) (k : A -> M B) (w : world) (a : A) (w' : world) :
  m w = (inr a, w') -> bind m k w = k a w'.
Proof. intros H. unfold bind. rewrite H. reflexivity. Qed.

Lemma bind_inl {A B} (m : M A) (k : A -> M B) (w : world) (e : exn) (w' : world) :
  m w = (inl e, w') -> bind m k w = (inl e, w').
Proof. intros H. unfold bind. rewrite H. reflexivity. Qed.


Lemma exec_source_pure (s : list stmt) (g : globals) (w : world) :
  forallb is_def s = true -> exec_source s g w = (inr (bind_defs s g), w).
Proof.
  revert g; induction s as [|[n v|m] s IH]; intros g H; [reflexivity| |discriminate].
  cbn in H |- *. apply IH, H.
Qed.

Lemma exec_cells_pure (cells : notebook) (g : globals) (w : world) :
  pure_notebook cells = true -> exec_cells cells g w = (inr (defs_of cells g), w).
Proof.
  unfold pure_notebook. revert g; induction cells as [|c cs IH]; intros g H; [reflexivity|].
  cbn in H. apply andb_true_iff in H as [Hc Hcs]. cbn. unfold is_code.
  destruct (String.eqb (cell_type c) "code").
  - rewrite (bind_inr _ _ _ _ _ (exec_source_pure _ g w Hc)). apply IH, Hcs.
  - apply IH, Hcs.
Qed.








(** ** Proofs: a whole run with the specification's notebook *)

Ltac run_cbn :=
  cbn -[load_csv count_by flag_buckets attach_flags categorize_record
        anomaly_summary_of traffic_points anomaly_points firstn frequency
        is_flagged Nat.ltb].

Lemma bind_assoc_w {A B C} (m : M A) (f : A -> M B) (g : B -> M C) (w : world) :
  bind (bind m f) g w = bind m (fun x => bind (f x) g) w.
Proof. unfold bind. destruct (m w) as [[e|a] w']; reflexivity. Qed.

(** One step of a run: reassociate, or evaluate the first action. *)
Ltac solve_step H :=
  unfold set_fs, set_ui, set_dirs, is_bad; run_cbn; (try rewrite H); reflexivity.
Ltac step H :=
  first [ rewrite bind_assoc_w
        | erewrite bind_inr by solve_step H
        | erewrite bind_inl by solve_step H ];
  cbv beta iota.

(** Evaluate a whole run with the specification's notebook, one action at a
    time, down to its final world. *)
Ltac run_steps H :=
  let f := fresh "f" in let d := fresh "d" in let u0 := fresh "ui0" in
  let b := fresh "b" in let Hb := fresh "Hb" in
  intros [f d u0 b] Hb; cbn in Hb; subst b;
  unfold run_app, app; do 4 step H; rewrite analysis_run_effect;
  unfold try_body, process_all, show_results;
  repeat step H; unfold st_emit, set_ui; cbv beta iota zeta;
  cbn [snd fs ui dirs bad].

(** With writable paths, a run with the specification's notebook appends
    the same interface elements and writes the same files, whatever the
    state it starts from. *)
Lemma spec_run_shape (k : R) (outlier_model : list (list Z) -> list bool) (u : csv) :
  exists out ds, forall w, bad w = [] ->
    ui (run_app (Some (spec_notebook k outlier_model)) (Some u) w) = ui w ++ out /\
    fs (run_app (Some (spec_notebook k outlier_model)) (Some u) w) =
      ds ++ fs_remove temp_file_path (fs w) /\
    bad (run_app (Some (spec_notebook k outlier_model)) (Some u) w) = [].
Proof.
  destruct (load_csv u) as [e|df] eqn:Hl; do 2 eexists; run_steps Hl;
    (split; [|split]);
    [ rewrite <- !app_assoc; reflexivity
    | unfold fs_remove; run_cbn;
      rewrite <- (app_nil_l (filter _ f)) at 1; try rewrite !app_comm_cons; reflexivity
    | reflexivity
    | rewrite <- !app_assoc; reflexivity
    | unfold fs_remove; run_cbn;
      rewrite <- (app_nil_l (filter _ f)) at 1; try rewrite !app_comm_cons; reflexivity
    | reflexivity ].
Qed.




(** C6.  Modelled from the spec: the pipeline is deterministic.  With the
    specification's notebook (a fixed constant [k] and a fixed outlier model,
    that is a fixed seed), running the app twice in a row on the same upload,
    the second run starting from the disk and page the first one left,
    appends exactly the same interface elements (the bucket tables with their
    flags, the summary numbers, the records) and writes exactly the same
    artifacts, on top of what was there before. *)
Theorem pipeline_runs_deterministic (k : R) (outlier_model : list (list Z) -> list bool)
    (u : csv) (w0 : world) :
  bad w0 = [] ->
  exists out ds,
    let w1 := run_app (Some (spec_notebook k outlier_model)) (Some u) w0 in
    let w2 := run_app (Some (spec_notebook k outlier_model)) (Some u) w1 in
    ui w1 = ui w0 ++ out /\ ui w2 = ui w1 ++ out /\
    fs w1 = ds ++ fs_remove temp_file_path (fs w0) /\
    fs w2 = ds ++ fs_remove temp_file_path (fs w1).
Proof.
  intros Hb. destruct (spec_run_shape k outlier_model u) as (out & ds & H).
  exists out, ds. cbv zeta.
  destruct (H w0 Hb) as (H1 & H2 & H3).
  destruct (H _ H3) as (H4 & H5 & _).
  repeat split; assumption.
Qed.

Lemma pipeline_runs_deterministic_witness :
  bad (mk_world [] [] [] []) = [] /\
  exists out ds,
    let w1 := run_app (Some (spec_notebook 2%R (fun l => map (fun _ => false) l)))
                (Some (mk_csv ["Time"; "Length"; "Source"; "Destination"; "Protocol"]
                         [[CNum 0; CNum 128; CText "192.168.1.1"; CText "10.0.0.1"; CNum 6]]))
                (mk_world [] [] [] []) in
    let w2 := run_app (Some (spec_notebook 2%R (fun l => map (fun _ => false) l)))
                (Some (mk_csv ["Time"; "Length"; "Source"; "Destination"; "Protocol"]
                         [[CNum 0; CNum 128; CText "192.168.1.1"; CText "10.0.0.1"; CNum 6]]))
                w1 in
    ui w1 = ui (mk_world [] [] [] []) ++ out /\ ui w2 = ui w1 ++ out /\
    fs w1 = ds ++ fs_remove temp_file_path (fs (mk_world [] [] [] [])) /\
    fs w2 = ds ++ fs_remove temp_file_path (fs w1).
Proof.
  split; [reflexivity|].
  apply (pipeline_runs_deterministic 2%R (fun l => map (fun _ => false) l)
           (mk_csv ["Time"; "Length"; "Source"; "Destination"; "Protocol"]
              [[CNum 0; CNum 128; CText "192.168.1.1"; CText "10.0.0.1"; CNum 6]])
           (mk_world [] [] [] [])).
  reflexivity.
Defined.




(** ** Further properties of the script [app.py] *)

(** The bindings a cell's source makes, in execution order. *)
Fixpoint stmt_defs (s : list stmt) : globals :=
  match s with
  | [] => []
  | SDef n v :: s' => (n, v) :: stmt_defs s'
  | SRun _ :: s' => stmt_defs s'
  end.

(** The bindings of all code cells, in execution order. *)
Definition code_defs (cells : notebook) : globals :=
  flat_map (fun c => if is_code c then stmt_defs (source c) else []) cells.

Lemma bind_defs_rev (s : list stmt) (g : globals) :
  bind_defs s g = rev (stmt_defs s) ++ g.
Proof.
  revert g; induction s as [|[n v|m] s IH]; intros g; cbn; [reflexivity| |apply IH].
  rewrite IH, <- app_assoc. reflexivity.
Qed.

Lemma defs_of_rev (cells : notebook) (g : globals) :
  defs_of cells g = rev (code_defs cells) ++ g.
Proof.
  unfold code_defs. revert g; induction cells as [|c cs IH]; intros g; [reflexivity|].
  cbn [defs_of flat_map]. rewrite rev_app_distr, <- app_assoc.
  destruct (is_code c); rewrite IH; [rewrite bind_defs_rev; reflexivity | reflexivity].
Qed.

Lemma g_lookup_app (n : string) (g1 g2 : globals) :
  g_lookup n (g1 ++ g2) =
  match g_lookup n g1 with Some v => Some v | None => g_lookup n g2 end.
Proof.
  induction g1 as [|[m v] g1 IH]; [reflexivity|]. cbn.
  destruct (String.eqb n m); [reflexivity|exact IH].
Qed.

(** [load_ipynb_module] (lines 10-22) leaves the disk and page untouched for
    a notebook of bindings, and afterwards every name resolves to its last
    binding in the code cells, in cell order; a name no code cell binds keeps
    the script's own binding. *)
Theorem loaded_names_resolve (cells : notebook) (g : globals) (w : world) :
  pure_notebook cells = true ->
  exists g', load_ipynb_module (Some cells) g w = (inr g', w) /\
    forall n, g_lookup n g' =
      match g_lookup n (rev (code_defs cells)) with
      | Some v => Some v
      | None => g_lookup n g
      end.
Proof.
  intros Hp. exists (defs_of cells g). split.
  - apply exec_cells_pure, Hp.
  - intros n. rewrite defs_of_rev. apply g_lookup_app.
Qed.

Lemma loaded_names_resolve_witness :
  pure_notebook [mk_cell "code" [SDef "st" GOther]; mk_cell "markdown" [];
                 mk_cell "code" [SDef "st" (GAnalysis generate_traffic_analysis)]] = true /\
  exists g', load_ipynb_module (Some [mk_cell "code" [SDef "st" GOther]; mk_cell "markdown" [];
                 mk_cell "code" [SDef "st" (GAnalysis generate_traffic_analysis)]])
               app_globals (mk_world [] [] [] []) = (inr g', mk_world [] [] [] []) /\
    forall n, g_lookup n g' =
      match g_lookup n (rev (code_defs [mk_cell "code" [SDef "st" GOther]; mk_cell "markdown" [];
                 mk_cell "code" [SDef "st" (GAnalysis generate_traffic_analysis)]])) with
      | Some v => Some v
      | None => g_lookup n app_globals
      end.
Proof.
  split; [reflexivity|].
  apply (loaded_names_resolve [mk_cell "code" [SDef "st" GOther]; mk_cell "markdown" [];
                 mk_cell "code" [SDef "st" (GAnalysis generate_traffic_analysis)]]
           app_globals (mk_world [] [] [] [])). reflexivity.
Defined.









